(** * Condition trees of [sagemaker.workflow.conditions]

    A shallow embedding of [src/sagemaker/workflow/conditions.py]: the
    condition classes, their [__init__] methods, [to_request] and the helper
    [primitive_or_expr], followed by the properties of the rendered request
    structure. *)

From Stdlib Require Import String ZArith List Bool Permutation Lia.
Import ListNotations.
Local Open Scope string_scope.

#[local] Set Warnings "-register-all".

(** ** Exceptions and fallible computations *)

(** The exceptions the module can run into: a call that leaves out a
    required positional argument ([TypeError]), an attribute lookup on an
    object that has no such attribute ([AttributeError]), and calls nested
    deeper than the interpreter admits ([RecursionError]). *)
Inductive exception : Type :=
| TypeError
| AttributeError
| RecursionError.

Inductive result (A : Type) : Type :=
| Ok (a : A)
| Raise (e : exception).

Arguments Ok {A} a.
Arguments Raise {A} e.

Definition bind {A B : Type} (m : result A) (k : A -> result B) : result B :=
  match m with
  | Ok a => k a
  | Raise e => Raise e
  end.

Notation "x <- m ;; k" := (bind m (fun x => k))
  (at level 61, m at next level, right associativity).

(** A list comprehension [[f(x) for x in xs]] whose body may raise: elements
    are evaluated from left to right and the first exception escapes. *)
Definition comprehension {A B : Type} (f : A -> result B) : list A -> result (list B) :=
  fix go (xs : list A) : result (list B) :=
    match xs with
    | [] => Ok []
    | x :: rest =>
        y <- f x ;;
        ys <- go rest ;;
        Ok (y :: ys)
    end.

(** ** Python values *)

(** The classes [primitive_or_expr] tests with [isinstance]. *)
Inductive entity_class : Type :=
| ClsExecutionVariable
| ClsExpression
| ClsParameter
| ClsProperties.

(** Operands and request structures.  [VFloat] carries the binary64 bit
    pattern; the module only passes floats along.  A [VDict] is a dict with
    string keys in insertion order.  [VEntity cls e] is an instance of one of
    the four classes above whose [expr] property returns [e].  [VOther] is an
    instance of any other class without an [expr] attribute, [VOtherExpr] one
    of any other class that happens to have an [expr] attribute. *)
Inductive pyvalue : Type :=
| VNone
| VBool (b : bool)
| VInt (n : Z)
| VFloat (bits : Z)
| VStr (s : string)
| VList (items : list pyvalue)
| VDict (entries : list (string * pyvalue))
| VEntity (cls : entity_class) (expr : pyvalue)
| VOther (type_name : string)
| VOtherExpr (type_name : string) (expr : pyvalue).

(** [v.expr] *)
Definition getattr_expr (v : pyvalue) : result pyvalue :=
  match v with
  | VEntity _ e => Ok e
  | VOtherExpr _ e => Ok e
  | _ => Raise AttributeError
  end.

(** [isinstance(value, (ExecutionVariable, Expression, Parameter, Properties))] *)
Definition isinstance_deferred (v : pyvalue) : bool :=
  match v with
  | VEntity _ _ => true
  | _ => false
  end.

(** [ConditionValueType = Union[ExecutionVariable, Parameter, Properties]] *)
Definition is_ConditionValueType (v : pyvalue) : bool :=
  match v with
  | VEntity ClsExecutionVariable _ | VEntity ClsParameter _ | VEntity ClsProperties _ => true
  | _ => false
  end.

(** [d[key]] on a request structure, [None] when [d] is no dict or lacks the key. *)
Fixpoint assoc (key : string) (entries : list (string * pyvalue)) : option pyvalue :=
  match entries with
  | [] => None
  | (k, v) :: rest => if String.eqb k key then Some v else assoc key rest
  end.

Definition dict_get (key : string) (d : pyvalue) : option pyvalue :=
  match d with
  | VDict entries => assoc key entries
  | _ => None
  end.

(** ** [ConditionTypeEnum] *)

Inductive ConditionTypeEnum : Type :=
| EQ | GT | GTE | IN | LT | LTE | NOT | OR.

(** The [.value] of an enum member. *)
Definition enum_value (t : ConditionTypeEnum) : string :=
  match t with
  | EQ => "Equals"
  | GT => "GreaterThan"
  | GTE => "GreaterThanOrEqualTo"
  | IN => "In"
  | LT => "LessThan"
  | LTE => "LessThanOrEqualTo"
  | NOT => "Not"
  | OR => "Or"
  end.

(** ** Condition objects *)

(** One constructor per class that defines [to_request], with the attributes
    the instance carries.  [ConditionEquals] and its four siblings add no
    attribute to [ConditionComparison]; they only differ in [__init__]. *)
Inductive Condition : Type :=
| ConditionComparison (condition_type : ConditionTypeEnum) (left right : pyvalue)
| ConditionIn (condition_type : ConditionTypeEnum) (value : pyvalue) (in_values : list pyvalue)
| ConditionNot (condition_type : ConditionTypeEnum) (expression : Condition)
| ConditionOr (condition_type : ConditionTypeEnum) (conditions : list Condition).

Definition condition_type_of (c : Condition) : ConditionTypeEnum :=
  match c with
  | ConditionComparison t _ _ => t
  | ConditionIn t _ _ => t
  | ConditionNot t _ => t
  | ConditionOr t _ => t
  end.

(** ** [primitive_or_expr] *)

Definition primitive_or_expr (value : pyvalue) : result pyvalue :=
  if isinstance_deferred value then getattr_expr value else Ok value.

(** ** [to_request] *)

Fixpoint to_request (self : Condition) : result pyvalue :=
  match self with
  | ConditionComparison condition_type self_left self_right =>
      left_value <- getattr_expr self_left ;;
      right_value <- primitive_or_expr self_right ;;
      Ok (VDict [("Type", VStr (enum_value condition_type));
                 ("LeftValue", left_value);
                 ("RightValue", right_value)])
  | ConditionIn condition_type value in_values =>
      query_value <- getattr_expr value ;;
      values <- comprehension primitive_or_expr in_values ;;
      Ok (VDict [("Type", VStr (enum_value condition_type));
                 ("QueryValue", query_value);
                 ("Values", VList values)])
  | ConditionNot condition_type expression =>
      inner <- to_request expression ;;
      Ok (VDict [("Type", VStr (enum_value condition_type));
                 ("Expression", inner)])
  | ConditionOr condition_type conditions =>
      rendered <- comprehension to_request conditions ;;
      Ok (VDict [("Type", VStr (enum_value condition_type));
                 ("Conditions", VList rendered)])
  end.

(** ** Constructors *)

(** An argument of a call: [None] when the caller leaves it out. *)
Definition arg (A : Type) : Type := option A.

(** A parameter without default: leaving it out makes the call raise
    [TypeError] before the body runs. *)
Definition required {A : Type} (a : arg A) : result A :=
  match a with
  | Some x => Ok x
  | None => Raise TypeError
  end.

(** A parameter with a default. *)
Definition with_default {A : Type} (a : arg A) (d : A) : A :=
  match a with
  | Some x => x
  | None => d
  end.

(** The [__init__] attrs generates for [ConditionComparison]:
    [left] and [right] are [attr.ib(default=None)].  [condition_type] is the
    value of the first attribute once its default (the factory of
    [ConditionTypeEnum], defined in [sagemaker.workflow.entities]) has been
    applied. *)
Definition ConditionComparison_init
    (condition_type : ConditionTypeEnum) (left right : arg pyvalue) : result Condition :=
  Ok (ConditionComparison condition_type (with_default left VNone) (with_default right VNone)).

Definition ConditionEquals_init (left right : arg pyvalue) : result Condition :=
  l <- required left ;;
  r <- required right ;;
  ConditionComparison_init EQ (Some l) (Some r).

Definition ConditionGreaterThan_init (left right : arg pyvalue) : result Condition :=
  l <- required left ;;
  r <- required right ;;
  ConditionComparison_init GT (Some l) (Some r).

Definition ConditionGreaterThanOrEqualTo_init (left right : arg pyvalue) : result Condition :=
  l <- required left ;;
  r <- required right ;;
  ConditionComparison_init GTE (Some l) (Some r).

Definition ConditionLessThan_init (left right : arg pyvalue) : result Condition :=
  l <- required left ;;
  r <- required right ;;
  ConditionComparison_init LT (Some l) (Some r).

Definition ConditionLessThanOrEqualTo_init (left right : arg pyvalue) : result Condition :=
  l <- required left ;;
  r <- required right ;;
  ConditionComparison_init LTE (Some l) (Some r).

Definition ConditionIn_init (value : arg pyvalue) (in_values : arg (list pyvalue))
    : result Condition :=
  v <- required value ;;
  vs <- required in_values ;;
  Ok (ConditionIn IN v vs).

Definition ConditionNot_init (expression : arg Condition) : result Condition :=
  e <- required expression ;;
  Ok (ConditionNot NOT e).

(** [xs or []] where [xs] is [None] or a list: [None] and the empty list are
    falsy, so the fresh [[]] is taken; a non-empty list is kept. *)
Definition or_empty {A : Type} (xs : option (list A)) : list A :=
  match xs with
  | Some (x :: rest) => x :: rest
  | Some [] => []
  | None => []
  end.

(** [conditions: List[Condition] = None]; the inner option is Python's
    [None] passed or defaulted, the outer one the argument left out. *)
Definition ConditionOr_init (conditions : arg (option (list Condition))) : result Condition :=
  let conditions := with_default conditions None in
  Ok (ConditionOr OR (or_empty conditions)).

(** Construct, then render: what a caller observes from
    [Cls(args).to_request()]. *)
Definition request_of (built : result Condition) : result pyvalue :=
  c <- built ;;
  to_request c.

(** The five fixed-kind comparison classes with the member each passes to
    [ConditionComparison.__init__]. *)
Definition comparison_inits
    : list (ConditionTypeEnum * (arg pyvalue -> arg pyvalue -> result Condition)) :=
  [ (EQ, ConditionEquals_init);
    (GT, ConditionGreaterThan_init);
    (GTE, ConditionGreaterThanOrEqualTo_init);
    (LT, ConditionLessThan_init);
    (LTE, ConditionLessThanOrEqualTo_init) ].

(** A call of one of the eight public variant constructors, with the
    arguments its signature offers. *)
Inductive public_call : Type :=
| NewEquals (left right : arg pyvalue)
| NewGreaterThan (left right : arg pyvalue)
| NewGreaterThanOrEqualTo (left right : arg pyvalue)
| NewLessThan (left right : arg pyvalue)
| NewLessThanOrEqualTo (left right : arg pyvalue)
| NewIn (value : arg pyvalue) (in_values : arg (list pyvalue))
| NewNot (expression : arg Condition)
| NewOr (conditions : arg (option (list Condition))).

Definition construct (call : public_call) : result Condition :=
  match call with
  | NewEquals l r => ConditionEquals_init l r
  | NewGreaterThan l r => ConditionGreaterThan_init l r
  | NewGreaterThanOrEqualTo l r => ConditionGreaterThanOrEqualTo_init l r
  | NewLessThan l r => ConditionLessThan_init l r
  | NewLessThanOrEqualTo l r => ConditionLessThanOrEqualTo_init l r
  | NewIn v vs => ConditionIn_init v vs
  | NewNot e => ConditionNot_init e
  | NewOr cs => ConditionOr_init cs
  end.

(** The member each class hands to [super().__init__]. *)
Definition variant_kind (call : public_call) : ConditionTypeEnum :=
  match call with
  | NewEquals _ _ => EQ
  | NewGreaterThan _ _ => GT
  | NewGreaterThanOrEqualTo _ _ => GTE
  | NewLessThan _ _ => LT
  | NewLessThanOrEqualTo _ _ => LTE
  | NewIn _ _ => IN
  | NewNot _ => NOT
  | NewOr _ => OR
  end.



(** The request the specification gives for a comparison: both operands go
    through the shared helper. *)
Definition spec_comparison_request (k : ConditionTypeEnum) (a b : pyvalue) : result pyvalue :=
  l <- primitive_or_expr a ;;
  r <- primitive_or_expr b ;;
  Ok (VDict [("Type", VStr (enum_value k)); ("LeftValue", l); ("RightValue", r)]).

(** Sample operands: a pipeline parameter, an execution variable and a step
    property with the reference each one's [expr] yields. *)
Definition sample_parameter : pyvalue :=
  VEntity ClsParameter (VDict [("Get", VStr "Parameters.MyInt")]).

Definition sample_execution_variable : pyvalue :=
  VEntity ClsExecutionVariable (VDict [("Get", VStr "Execution.StartDateTime")]).

Definition sample_property : pyvalue :=
  VEntity ClsProperties (VDict [("Get", VStr "Steps.MyStep.Prop")]).

(** ** Predicates on operands, trees and calls *)



(** Plain data: built from [None], booleans, numbers, strings, lists and
    dicts only, with no class instance anywhere inside. *)
Fixpoint is_plain (v : pyvalue) : bool :=
  match v with
  | VNone | VBool _ | VInt _ | VFloat _ | VStr _ => true
  | VList items => forallb is_plain items
  | VDict entries => forallb (fun kv => is_plain (snd kv)) entries
  | VEntity _ _ | VOther _ | VOtherExpr _ _ => false
  end.

(** The operand is an object with an [expr] attribute whose value is plain
    data. *)
Definition expr_plain (v : pyvalue) : bool :=
  match v with
  | VEntity _ e | VOtherExpr _ e => is_plain e
  | _ => false
  end.

(** The operand is plain data itself, or an instance of one of the four
    deferred classes whose [expr] is plain data. *)
Definition resolves_plain (v : pyvalue) : bool :=
  match v with
  | VEntity _ e => is_plain e
  | _ => is_plain v
  end.

Fixpoint operands_plain (c : Condition) : bool :=
  match c with
  | ConditionComparison _ l r => expr_plain l && resolves_plain r
  | ConditionIn _ v vs => expr_plain v && forallb resolves_plain vs
  | ConditionNot _ e => operands_plain e
  | ConditionOr _ cs => forallb operands_plain cs
  end.

(** The keys each [to_request] writes, in the order of its dict display. *)
Definition request_keys (c : Condition) : list string :=
  match c with
  | ConditionComparison _ _ _ => ["Type"; "LeftValue"; "RightValue"]
  | ConditionIn _ _ _ => ["Type"; "QueryValue"; "Values"]
  | ConditionNot _ _ => ["Type"; "Expression"]
  | ConditionOr _ _ => ["Type"; "Conditions"]
  end.

(** A literal operand: [None] or a scalar of type [bool], [int], [float] or
    [str]. *)
Definition is_literal (v : pyvalue) : bool :=
  match v with
  | VNone | VBool _ | VInt _ | VFloat _ | VStr _ => true
  | _ => false
  end.

(** [self.condition_type = t].  The classes are declared with [@attr.s]
    without [frozen=True], so the attribute can be assigned on a node after
    it was built. *)
Definition setattr_condition_type (self : Condition) (t : ConditionTypeEnum) : Condition :=
  match self with
  | ConditionComparison _ l r => ConditionComparison t l r
  | ConditionIn _ v vs => ConditionIn t v vs
  | ConditionNot _ e => ConditionNot t e
  | ConditionOr _ cs => ConditionOr t cs
  end.




(** * Properties *)

(** ** Auxiliary facts *)

Lemma bind_ok {A B : Type} (m : result A) (k : A -> result B) (b : B) :
  bind m k = Ok b -> exists a, m = Ok a /\ k a = Ok b.
Proof.
  destruct m as [a | e]; simpl; intro H.
  - exists a. split; [reflexivity | exact H].
  - discriminate.
Qed.

Lemma comprehension_Forall2 {A B : Type} (f : A -> result B) (xs : list A) (ys : list B) :
  comprehension f xs = Ok ys <-> Forall2 (fun x y => f x = Ok y) xs ys.
Proof.
  revert ys. induction xs as [| x rest IH]; intro ys; simpl.
  - split.
    + intro H. injection H as <-. constructor.
    + intro H. inversion H. reflexivity.
  - split.
    + intro H.
      apply bind_ok in H. destruct H as [y [Hy H]].
      apply bind_ok in H. destruct H as [ys' [Hys H]].
      injection H as <-.
      constructor; [exact Hy | apply IH; exact Hys].
    + intro H. inversion H as [| x' y rest' ys' Hy Hrest]; subst.
      rewrite Hy. simpl.
      apply IH in Hrest. rewrite Hrest. reflexivity.
Qed.

Lemma comprehension_total {A B : Type} (f : A -> result B) (xs : list A) :
  Forall (fun x => exists y, f x = Ok y) xs -> exists ys, comprehension f xs = Ok ys.
Proof.
  induction 1 as [| x rest [y Hy] _ [ys Hys]]; simpl.
  - exists []. reflexivity.
  - exists (y :: ys). rewrite Hy. simpl. rewrite Hys. reflexivity.
Qed.

Lemma primitive_or_expr_total (v : pyvalue) : exists r, primitive_or_expr v = Ok r.
Proof.
  unfold primitive_or_expr.
  destruct v; simpl; eauto.
Qed.

Lemma resolve_all_total (vs : list pyvalue) :
  exists rs, comprehension primitive_or_expr vs = Ok rs.
Proof.
  apply comprehension_total.
  apply Forall_forall. intros v _. apply primitive_or_expr_total.
Qed.

(** No object is the value of its own [expr]: values are finite. *)
Lemma entity_not_own_expr (v : pyvalue) (cls : entity_class) : v <> VEntity cls v.
Proof.
  revert cls. induction v; intros c H; try discriminate.
  injection H as Hc Hv. exact (IHv _ Hv).
Qed.

Lemma other_not_own_expr (v : pyvalue) (name : string) : v <> VOtherExpr name v.
Proof.
  revert name. induction v; intros nm H; try discriminate.
  injection H as Hn Hv. exact (IHv _ Hv).
Qed.

(** Induction on condition trees with the hypothesis available for every
    member of a disjunction. *)
Lemma Condition_tree_ind (P : Condition -> Prop)
    (Hcmp : forall t l r, P (ConditionComparison t l r))
    (Hin : forall t v vs, P (ConditionIn t v vs))
    (Hnot : forall t e, P e -> P (ConditionNot t e))
    (Hor : forall t cs, Forall P cs -> P (ConditionOr t cs)) :
  forall c, P c.
Proof.
  fix rec 1.
  intros [t l r | t v vs | t e | t cs].
  - apply Hcmp.
  - apply Hin.
  - apply Hnot. apply rec.
  - apply Hor.
    induction cs as [| c rest IH]; constructor.
    + apply rec.
    + exact IH.
Qed.

(** Whatever the node, the ["Type"] entry is the value of its
    [condition_type] attribute. *)
Lemma to_request_type (c : Condition) (d : pyvalue) :
  to_request c = Ok d ->
  dict_get "Type" d = Some (VStr (enum_value (condition_type_of c))).
Proof.
  destruct c as [t l r | t v vs | t e | t cs]; simpl; intro H.
  - apply bind_ok in H. destruct H as [x [_ H]].
    apply bind_ok in H. destruct H as [y [_ H]].
    injection H as <-. reflexivity.
  - apply bind_ok in H. destruct H as [x [_ H]].
    apply bind_ok in H. destruct H as [y [_ H]].
    injection H as <-. reflexivity.
  - apply bind_ok in H. destruct H as [x [_ H]].
    injection H as <-. reflexivity.
  - apply bind_ok in H. destruct H as [x [_ H]].
    injection H as <-. reflexivity.
Qed.

Lemma to_request_or (t : ConditionTypeEnum) (cs : list Condition) :
  to_request (ConditionOr t cs)
  = (rendered <- comprehension to_request cs ;;
     Ok (VDict [("Type", VStr (enum_value t)); ("Conditions", VList rendered)])).
Proof. reflexivity. Qed.

Lemma or_empty_list {A : Type} (xs : list A) : or_empty (Some xs) = xs.
Proof. destruct xs; reflexivity. Qed.

Lemma ConditionValueType_has_expr (v : pyvalue) :
  is_ConditionValueType v = true -> exists e, getattr_expr v = Ok e.
Proof.
  destruct v; simpl; try discriminate.
  intros _. eauto.
Qed.

(** ** Comparisons *)

(** C1, as stated, fails on a literal left operand: [ConditionEquals(1, 2)]
    is built, but [to_request] looks up [self.left.expr] on the integer and
    raises [AttributeError], whereas the stated request would be
    [{"Type": "Equals", "LeftValue": 1, "RightValue": 2}]. *)
Lemma comparison_literal_left_raises :
  request_of (ConditionEquals_init (Some (VInt 1)) (Some (VInt 2))) = Raise AttributeError
  /\ spec_comparison_request EQ (VInt 1) (VInt 2)
     = Ok (VDict [("Type", VStr "Equals"); ("LeftValue", VInt 1); ("RightValue", VInt 2)])
  /\ request_of (ConditionEquals_init (Some (VInt 1)) (Some (VInt 2)))
     <> spec_comparison_request EQ (VInt 1) (VInt 2).
Proof.
  repeat split; discriminate.
Qed.

(** C1 (amended): for each of the five comparison kinds K, every left
    operand [a] that has an [expr] and every right operand [b], rendering
    [Comparison_K(a, b)] gives exactly
    [{"Type": wire(K), "LeftValue": a.expr, "RightValue": resolve(b)}];
    when [a] is an execution variable, expression, parameter or property,
    [a.expr] is [resolve(a)] and the request is the one the specification
    states.  With a literal left operand, whatever the right one, rendering
    raises [AttributeError] and so differs from the stated request. *)
Theorem comparison_to_request :
  forall k init, In (k, init) comparison_inits ->
  (forall a b e, getattr_expr a = Ok e ->
   exists r,
     primitive_or_expr b = Ok r
     /\ request_of (init (Some a) (Some b))
        = Ok (VDict [("Type", VStr (enum_value k)); ("LeftValue", e); ("RightValue", r)])
     /\ (isinstance_deferred a = true ->
         primitive_or_expr a = Ok e
         /\ request_of (init (Some a) (Some b)) = spec_comparison_request k a b))
  /\ (forall a b, is_literal a = true ->
        request_of (init (Some a) (Some b)) = Raise AttributeError
        /\ request_of (init (Some a) (Some b)) <> spec_comparison_request k a b).
Proof.
  intros k init Hin.
  assert (Hinit : forall a b,
             request_of (init (Some a) (Some b)) = to_request (ConditionComparison k a b)).
  { intros a b. simpl in Hin.
    destruct Hin as [H | [H | [H | [H | [H | []]]]]];
      injection H as <- <-; reflexivity. }
  split.
  - intros a b e Ha.
    destruct (primitive_or_expr_total b) as [r Hr].
    exists r.
    assert (Hreq : to_request (ConditionComparison k a b)
                   = Ok (VDict [("Type", VStr (enum_value k)); ("LeftValue", e);
                                ("RightValue", r)])).
    { simpl. rewrite Ha. simpl. rewrite Hr. reflexivity. }
    split; [exact Hr |].
    split; [rewrite Hinit; exact Hreq |].
    intro Hdef.
    assert (Hres : primitive_or_expr a = Ok e).
    { unfold primitive_or_expr. rewrite Hdef. exact Ha. }
    split; [exact Hres |].
    rewrite Hinit, Hreq.
    unfold spec_comparison_request. rewrite Hres. simpl. rewrite Hr. reflexivity.
  - intros a b Hlit.
    assert (Hraise : to_request (ConditionComparison k a b) = Raise AttributeError).
    { destruct a; simpl in Hlit; try discriminate; reflexivity. }
    rewrite Hinit, Hraise. split; [reflexivity |].
    unfold spec_comparison_request.
    destruct (primitive_or_expr_total a) as [l ->].
    destruct (primitive_or_expr_total b) as [r ->].
    simpl. discriminate.
Qed.

Lemma comparison_to_request_witness :
  (exists r,
     primitive_or_expr (VInt 5) = Ok r
     /\ request_of (ConditionGreaterThan_init (Some sample_parameter) (Some (VInt 5)))
        = Ok (VDict [("Type", VStr (enum_value GT));
                     ("LeftValue", VDict [("Get", VStr "Parameters.MyInt")]);
                     ("RightValue", r)])
     /\ (isinstance_deferred sample_parameter = true ->
         primitive_or_expr sample_parameter = Ok (VDict [("Get", VStr "Parameters.MyInt")])
         /\ request_of (ConditionGreaterThan_init (Some sample_parameter) (Some (VInt 5)))
            = spec_comparison_request GT sample_parameter (VInt 5)))
  /\ request_of (ConditionGreaterThan_init (Some (VStr "a")) (Some sample_parameter))
     = Raise AttributeError
  /\ request_of (ConditionGreaterThan_init (Some (VStr "a")) (Some sample_parameter))
     <> spec_comparison_request GT (VStr "a") sample_parameter.
Proof.
  destruct (comparison_to_request GT ConditionGreaterThan_init) as [Hexpr Hlit].
  - simpl. right. left. reflexivity.
  - split.
    + apply Hexpr. reflexivity.
    + apply Hlit. reflexivity.
Defined.

(** ** Missing operands *)

(** C2, as stated, fails on the generic comparison class: its generated
    [__init__] defaults [left] and [right] to [None], so
    [ConditionComparison(ConditionTypeEnum.GT)] is built without operands
    and the failure only shows when it is rendered. *)
Lemma generic_comparison_fails_at_render :
  exists c,
    ConditionComparison_init GT None None = Ok c
    /\ c = ConditionComparison GT VNone VNone
    /\ to_request c = Raise AttributeError.
Proof.
  eexists. repeat split.
Qed.

(** C2 (amended): each of the five fixed-kind comparison constructors and
    the negation constructor raises [TypeError] at construction when an
    operand is left out, so every node they build carries exactly the
    operands that were passed.  The generic [ConditionComparison] never
    rejects: it fills a missing operand with [None], and a comparison whose
    left operand is [None] raises [AttributeError] when rendered. *)
Theorem missing_operand_rejection :
  (forall k init, In (k, init) comparison_inits ->
     (forall l r, l = None \/ r = None -> init l r = Raise TypeError)
     /\ (forall l r c, init l r = Ok c ->
           exists a b, l = Some a /\ r = Some b /\ c = ConditionComparison k a b))
  /\ ConditionNot_init None = Raise TypeError
  /\ (forall e c, ConditionNot_init e = Ok c ->
        exists inner, e = Some inner /\ c = ConditionNot NOT inner)
  /\ (forall t l r,
        ConditionComparison_init t l r
        = Ok (ConditionComparison t (with_default l VNone) (with_default r VNone)))
  /\ (forall t r, to_request (ConditionComparison t VNone r) = Raise AttributeError).
Proof.
  split; [| split; [| split; [| split]]].
  - intros k init Hin. simpl in Hin.
    destruct Hin as [H | [H | [H | [H | [H | []]]]]]; injection H as <- <-;
      (split;
       [ intros l r [-> | ->]; [reflexivity | destruct l; reflexivity]
       | intros [a |] [b |] c Hc; try discriminate;
         injection Hc as <-; exists a, b; repeat split ]).
  - reflexivity.
  - intros [inner |] c Hc; try discriminate.
    injection Hc as <-. exists inner. split; reflexivity.
  - reflexivity.
  - reflexivity.
Qed.

Lemma missing_operand_rejection_witness :
  ConditionLessThan_init (Some sample_parameter) None = Raise TypeError
  /\ (exists a b,
        Some sample_parameter = Some a /\ Some (VInt 3) = Some b
        /\ ConditionComparison LT sample_parameter (VInt 3) = ConditionComparison LT a b)
  /\ (exists inner,
        Some (ConditionOr OR []) = Some inner
        /\ ConditionNot NOT (ConditionOr OR []) = ConditionNot NOT inner).
Proof.
  destruct missing_operand_rejection as [Hcmp [_ [Hnot _]]].
  destruct (Hcmp LT ConditionLessThan_init) as [Hrej Hbuilt].
  - simpl. do 3 right. left. reflexivity.
  - split; [| split].
    + apply Hrej. right. reflexivity.
    + apply (Hbuilt (Some sample_parameter) (Some (VInt 3))). reflexivity.
    + apply (Hnot (Some (ConditionOr OR []))). reflexivity.
Defined.

(** ** The shared helper *)

(** C3: [primitive_or_expr] returns [v.expr] exactly when [v] is an instance
    of one of the four classes execution variable, expression, parameter and
    property; every other value, literal or not and whether or not it has an
    [expr] of its own, comes back unchanged; no call raises. *)
Theorem primitive_or_expr_dispatch :
  forall v,
    (isinstance_deferred v = true <-> exists cls e, v = VEntity cls e)
    /\ (isinstance_deferred v = true ->
        exists e, getattr_expr v = Ok e /\ primitive_or_expr v = Ok e)
    /\ (isinstance_deferred v = false -> primitive_or_expr v = Ok v)
    /\ (primitive_or_expr v = getattr_expr v <-> isinstance_deferred v = true)
    /\ (exists r, primitive_or_expr v = Ok r).
Proof.
  intro v.
  split; [| split; [| split; [| split]]].
  - split.
    + destruct v; simpl; try discriminate. intros _. eauto.
    + intros [cls [e ->]]. reflexivity.
  - destruct v; simpl; try discriminate. intros _. eauto.
  - unfold primitive_or_expr. intros ->. reflexivity.
  - unfold primitive_or_expr. split.
    + destruct v; simpl; try discriminate; try reflexivity.
      intro H. injection H as H. exfalso. exact (other_not_own_expr _ _ (eq_sym H)).
    + intros ->. reflexivity.
  - apply primitive_or_expr_total.
Qed.

Lemma primitive_or_expr_dispatch_witness :
  (exists e, getattr_expr sample_property = Ok e /\ primitive_or_expr sample_property = Ok e)
  /\ primitive_or_expr (VStr "a") = Ok (VStr "a")
  /\ primitive_or_expr (VOtherExpr "JsonGet" (VStr "x")) = Ok (VOtherExpr "JsonGet" (VStr "x")).
Proof.
  split; [| split].
  - apply (primitive_or_expr_dispatch sample_property). reflexivity.
  - apply (primitive_or_expr_dispatch (VStr "a")). reflexivity.
  - apply (primitive_or_expr_dispatch (VOtherExpr "JsonGet" (VStr "x"))). reflexivity.
Defined.

(** ** Defaults of the sequence arguments *)

(** C4, as stated, fails: [ConditionIn.__init__] declares [in_values]
    without a default and stores it as passed, so leaving it out raises
    [TypeError] while an explicit empty list builds a node. *)
Lemma membership_omitted_differs_from_empty :
  ConditionIn_init (Some sample_parameter) None = Raise TypeError
  /\ ConditionIn_init (Some sample_parameter) (Some []) = Ok (ConditionIn IN sample_parameter [])
  /\ ConditionIn_init (Some sample_parameter) None
     <> ConditionIn_init (Some sample_parameter) (Some []).
Proof.
  repeat split; discriminate.
Qed.

(** C4 (amended): the membership constructor has no default for
    [in_values]: leaving the argument out raises [TypeError], and a list that
    is passed, empty or not, is stored as it is.  The [or []] defaulting
    belongs to the disjunction constructor, where leaving [conditions] out,
    passing [None] and passing an empty list all yield the empty sequence,
    and a non-empty list is kept. *)
Theorem sequence_argument_defaults :
  (forall v, ConditionIn_init v None = Raise TypeError)
  /\ (forall x vs, ConditionIn_init (Some x) (Some vs) = Ok (ConditionIn IN x vs))
  /\ ConditionOr_init None = Ok (ConditionOr OR [])
  /\ ConditionOr_init (Some None) = ConditionOr_init None
  /\ ConditionOr_init (Some (Some [])) = ConditionOr_init None
  /\ (forall c cs, ConditionOr_init (Some (Some (c :: cs))) = Ok (ConditionOr OR (c :: cs))).
Proof.
  repeat split.
  intros [v |]; reflexivity.
Qed.

(** ** Kinds *)

(** C5, as stated, fails on "never changes afterwards": the classes are
    not frozen, so the kind of a node built by [ConditionEquals] can be
    assigned, and the node then renders as [GreaterThan]. *)
Lemma kind_reassigned_after_construction :
  exists c,
    ConditionEquals_init (Some sample_parameter) (Some (VInt 1)) = Ok c
    /\ condition_type_of c = EQ
    /\ condition_type_of (setattr_condition_type c GT) = GT
    /\ to_request (setattr_condition_type c GT)
       = Ok (VDict [("Type", VStr "GreaterThan");
                    ("LeftValue", VDict [("Get", VStr "Parameters.MyInt")]);
                    ("RightValue", VInt 1)])
    /\ dict_get "Type" (VDict [("Type", VStr "GreaterThan");
                               ("LeftValue", VDict [("Get", VStr "Parameters.MyInt")]);
                               ("RightValue", VInt 1)])
       <> Some (VStr (enum_value EQ)).
Proof.
  eexists. repeat split. discriminate.
Qed.

(** C5 (amended): a node built by one of the eight public variant
    constructors, none of which takes a kind argument, carries the kind of
    its variant, and the ["Type"] entry of its request is the variant's wire
    string, one of [Equals], [GreaterThan], [GreaterThanOrEqualTo],
    [LessThan], [LessThanOrEqualTo], [In], [Not], [Or].  The kind is not
    immutable: assigning [condition_type] on a built node replaces it, and
    the request of any node carries the wire string of the kind the node
    holds when it is rendered. *)
Theorem kind_fixed_by_variant :
  map (fun call => enum_value (variant_kind call))
      [ NewEquals None None; NewGreaterThan None None;
        NewGreaterThanOrEqualTo None None; NewLessThan None None;
        NewLessThanOrEqualTo None None; NewIn None None; NewNot None; NewOr None ]
  = [ "Equals"; "GreaterThan"; "GreaterThanOrEqualTo"; "LessThan";
      "LessThanOrEqualTo"; "In"; "Not"; "Or" ]
  /\ (forall call c,
        construct call = Ok c ->
        condition_type_of c = variant_kind call
        /\ forall d, to_request c = Ok d ->
             dict_get "Type" d = Some (VStr (enum_value (variant_kind call))))
  /\ (forall c t,
        condition_type_of (setattr_condition_type c t) = t
        /\ ((exists d, to_request c = Ok d) ->
            exists d', to_request (setattr_condition_type c t) = Ok d'
                       /\ dict_get "Type" d' = Some (VStr (enum_value t)))).
Proof.
  split; [reflexivity |]. split.
  - intros call c Hc.
    assert (Hk : condition_type_of c = variant_kind call).
    { destruct call as [l r | l r | l r | l r | l r | v vs | e | cs]; simpl in Hc.
      1-5: destruct l as [a |]; [| discriminate];
           destruct r as [b |]; [| discriminate];
           injection Hc as <-; reflexivity.
      - destruct v as [x |]; [| discriminate].
        destruct vs as [xs |]; [| discriminate].
        injection Hc as <-. reflexivity.
      - destruct e as [inner |]; [| discriminate].
        injection Hc as <-. reflexivity.
      - injection Hc as <-. reflexivity. }
    split; [exact Hk |].
    intros d Hd. rewrite <- Hk. apply to_request_type. exact Hd.
  - intros c t.
    assert (Hset : condition_type_of (setattr_condition_type c t) = t)
      by (destruct c; reflexivity).
    split; [exact Hset |].
    intros [d Hd].
    assert (Hok : exists d', to_request (setattr_condition_type c t) = Ok d').
    { destruct c as [k l r | k v vs | k e | k cs].
      - simpl in Hd |- *.
        apply bind_ok in Hd. destruct Hd as [x [-> Hd]].
        apply bind_ok in Hd. destruct Hd as [y [-> _]].
        simpl. eauto.
      - simpl in Hd |- *.
        apply bind_ok in Hd. destruct Hd as [x [-> Hd]].
        apply bind_ok in Hd. destruct Hd as [y [-> _]].
        simpl. eauto.
      - simpl in Hd |- *.
        apply bind_ok in Hd. destruct Hd as [x [-> _]].
        simpl. eauto.
      - simpl setattr_condition_type. rewrite to_request_or in Hd |- *.
        apply bind_ok in Hd. destruct Hd as [x [-> _]].
        simpl. eauto. }
    destruct Hok as [d' Hd']. exists d'. split; [exact Hd' |].
    pose proof (to_request_type _ _ Hd') as T. rewrite Hset in T. exact T.
Qed.

Lemma kind_fixed_by_variant_witness :
  (condition_type_of (ConditionComparison LTE sample_execution_variable (VStr "2020"))
   = variant_kind (NewLessThanOrEqualTo (Some sample_execution_variable) (Some (VStr "2020")))
   /\ dict_get "Type"
        (VDict [("Type", VStr "LessThanOrEqualTo");
                ("LeftValue", VDict [("Get", VStr "Execution.StartDateTime")]);
                ("RightValue", VStr "2020")])
      = Some (VStr "LessThanOrEqualTo"))
  /\ exists d',
       to_request (setattr_condition_type
                     (ConditionComparison LTE sample_execution_variable (VStr "2020")) LT)
       = Ok d'
       /\ dict_get "Type" d' = Some (VStr (enum_value LT)).
Proof.
  destruct kind_fixed_by_variant as [_ [H Hset]].
  split.
  - destruct (H (NewLessThanOrEqualTo (Some sample_execution_variable) (Some (VStr "2020")))
                (ConditionComparison LTE sample_execution_variable (VStr "2020")))
      as [Hk Ht].
    + reflexivity.
    + split; [exact Hk |].
      apply Ht. reflexivity.
  - apply Hset. eexists. reflexivity.
Defined.

(** ** Membership *)

(** C6: a membership node whose [value] has an [expr] renders to exactly
    [{"Type": "In", "QueryValue": value.expr, "Values": [...]}] where the
    values are the candidates, each passed through [primitive_or_expr]. *)
Theorem membership_to_request :
  forall x q cs, getattr_expr x = Ok q ->
  exists vs,
    Forall2 (fun c v => primitive_or_expr c = Ok v) cs vs
    /\ request_of (ConditionIn_init (Some x) (Some cs))
       = Ok (VDict [("Type", VStr "In"); ("QueryValue", q); ("Values", VList vs)]).
Proof.
  intros x q cs Hx.
  destruct (resolve_all_total cs) as [vs Hvs].
  exists vs. split.
  - apply comprehension_Forall2. exact Hvs.
  - unfold request_of. simpl. rewrite Hx. simpl. rewrite Hvs. reflexivity.
Qed.

Lemma membership_to_request_witness :
  exists vs,
    Forall2 (fun c v => primitive_or_expr c = Ok v)
            [VInt 1; VStr "a"; sample_property] vs
    /\ request_of (ConditionIn_init (Some sample_parameter)
                                    (Some [VInt 1; VStr "a"; sample_property]))
       = Ok (VDict [("Type", VStr "In");
                    ("QueryValue", VDict [("Get", VStr "Parameters.MyInt")]);
                    ("Values", VList vs)]).
Proof.
  apply (membership_to_request sample_parameter). reflexivity.
Defined.

(** ** Negation *)

(** C7: a negation of a condition [c] that renders to [r] renders to
    exactly [{"Type": "Not", "Expression": r}], the full rendering of [c]
    nested under ["Expression"]; an exception raised while rendering [c]
    escapes unchanged.  In particular the negation of [Equals(x, v)], with
    [x] having an [expr], renders to
    [{"Type": "Not", "Expression": {"Type": "Equals", "LeftValue": x.expr,
    "RightValue": resolve(v)}}]. *)
Theorem negation_to_request :
  (forall c r,
     to_request c = Ok r ->
     request_of (ConditionNot_init (Some c))
     = Ok (VDict [("Type", VStr "Not"); ("Expression", r)]))
  /\ (forall c e,
        to_request c = Raise e ->
        request_of (ConditionNot_init (Some c)) = Raise e)
  /\ (forall x v e r c,
        getattr_expr x = Ok e ->
        primitive_or_expr v = Ok r ->
        ConditionEquals_init (Some x) (Some v) = Ok c ->
        request_of (ConditionNot_init (Some c))
        = Ok (VDict [("Type", VStr "Not");
                     ("Expression",
                      VDict [("Type", VStr "Equals");
                             ("LeftValue", e);
                             ("RightValue", r)])])).
Proof.
  split; [| split].
  - intros c r H. unfold request_of. simpl. rewrite H. reflexivity.
  - intros c e H. unfold request_of. simpl. rewrite H. reflexivity.
  - intros x v e r c Hx Hv Hc.
    injection Hc as <-.
    unfold request_of. simpl. rewrite Hx. simpl. rewrite Hv. reflexivity.
Qed.

Lemma negation_to_request_witness :
  request_of (ConditionNot_init
                (Some (ConditionIn IN sample_property [VInt 1; sample_parameter])))
  = Ok (VDict [("Type", VStr "Not");
               ("Expression",
                VDict [("Type", VStr "In");
                       ("QueryValue", VDict [("Get", VStr "Steps.MyStep.Prop")]);
                       ("Values", VList [VInt 1; VDict [("Get", VStr "Parameters.MyInt")]])])])
  /\ request_of (ConditionNot_init (Some (ConditionComparison LT (VInt 1) (VInt 2))))
     = Raise AttributeError
  /\ request_of (ConditionNot_init (Some (ConditionComparison EQ sample_parameter (VInt 1))))
     = Ok (VDict [("Type", VStr "Not");
                  ("Expression",
                   VDict [("Type", VStr "Equals");
                          ("LeftValue", VDict [("Get", VStr "Parameters.MyInt")]);
                          ("RightValue", VInt 1)])]).
Proof.
  destruct negation_to_request as [Hok [Hraise Heq]].
  split; [| split].
  - apply Hok. reflexivity.
  - apply Hraise. reflexivity.
  - apply (Heq sample_parameter (VInt 1)); reflexivity.
Defined.

(** ** Disjunction *)

(** C8: a disjunction built without its argument has the empty sequence of
    conditions, and rendering it, like rendering one built from the empty
    list, gives exactly [{"Type": "Or", "Conditions": []}]. *)
Theorem empty_disjunction_to_request :
  ConditionOr_init None = Ok (ConditionOr OR [])
  /\ request_of (ConditionOr_init None)
     = Ok (VDict [("Type", VStr "Or"); ("Conditions", VList [])])
  /\ request_of (ConditionOr_init (Some (Some [])))
     = Ok (VDict [("Type", VStr "Or"); ("Conditions", VList [])]).
Proof.
  repeat split.
Qed.

(** ** Order of candidates and terms *)

(** C9: whichever arrangement of the candidates or of the terms is passed to
    the constructor, the rendered ["Values"] list is the passed list with
    [primitive_or_expr] applied to each element, and the rendered
    ["Conditions"] list is the passed list with [to_request] applied to each
    element, position by position. *)
Theorem sequence_order_preserved :
  (forall x q base cs,
     getattr_expr x = Ok q -> Permutation base cs ->
     exists vs,
       request_of (ConditionIn_init (Some x) (Some cs))
       = Ok (VDict [("Type", VStr "In"); ("QueryValue", q); ("Values", VList vs)])
       /\ Forall2 (fun c v => primitive_or_expr c = Ok v) cs vs)
  /\ (forall base ts rs,
        Permutation base ts ->
        (request_of (ConditionOr_init (Some (Some ts)))
         = Ok (VDict [("Type", VStr "Or"); ("Conditions", VList rs)])
         <-> Forall2 (fun t r => to_request t = Ok r) ts rs)).
Proof.
  split.
  - intros x q base cs Hx _.
    destruct (resolve_all_total cs) as [vs Hvs].
    exists vs. split.
    + unfold request_of. simpl. rewrite Hx. simpl. rewrite Hvs. reflexivity.
    + apply comprehension_Forall2. exact Hvs.
  - intros base ts rs _.
    assert (Hinit : ConditionOr_init (Some (Some ts)) = Ok (ConditionOr OR ts)).
    { unfold ConditionOr_init, with_default. rewrite or_empty_list. reflexivity. }
    rewrite Hinit. unfold request_of, bind. rewrite to_request_or.
    rewrite <- comprehension_Forall2.
    split.
    + intro H. apply bind_ok in H. destruct H as [rs' [Hrs' H]].
      injection H as <-. exact Hrs'.
    + intros ->. reflexivity.
Qed.

Lemma sequence_order_preserved_witness :
  (exists vs,
     request_of (ConditionIn_init (Some sample_parameter)
                                  (Some [VStr "b"; sample_property; VInt 1]))
     = Ok (VDict [("Type", VStr "In");
                  ("QueryValue", VDict [("Get", VStr "Parameters.MyInt")]);
                  ("Values", VList vs)])
     /\ Forall2 (fun c v => primitive_or_expr c = Ok v)
                [VStr "b"; sample_property; VInt 1] vs)
  /\ request_of (ConditionOr_init (Some (Some
       [ ConditionOr OR [];
         ConditionComparison EQ sample_parameter (VInt 1) ])))
     = Ok (VDict [("Type", VStr "Or");
                  ("Conditions", VList
                     [ VDict [("Type", VStr "Or"); ("Conditions", VList [])];
                       VDict [("Type", VStr "Equals");
                              ("LeftValue", VDict [("Get", VStr "Parameters.MyInt")]);
                              ("RightValue", VInt 1)] ])]).
Proof.
  destruct sequence_order_preserved as [Hin Hor].
  split.
  - apply (Hin sample_parameter _ [VInt 1; VStr "b"; sample_property]).
    + reflexivity.
    + apply perm_trans with (l' := [VStr "b"; VInt 1; sample_property]).
      * apply perm_swap.
      * apply perm_skip. apply perm_swap.
  - apply (Hor [ ConditionComparison EQ sample_parameter (VInt 1); ConditionOr OR [] ]).
    + apply perm_swap.
    + repeat constructor.
Defined.

(** ** Auxiliary facts on failures and on the depth of calls *)

Lemma getattr_expr_raise (v : pyvalue) (e : exception) :
  getattr_expr v = Raise e -> e = AttributeError.
Proof.
  destruct v; simpl; intro H; try discriminate; injection H as <-; reflexivity.
Qed.



Lemma comprehension_app {A B : Type} (f : A -> result B) (xs ys : list A) :
  comprehension f (xs ++ ys)%list
  = (a <- comprehension f xs ;;
     b <- comprehension f ys ;;
     Ok (a ++ b)%list).
Proof.
  induction xs as [| x rest IH]; simpl.
  - destruct (comprehension f ys); reflexivity.
  - destruct (f x) as [y | e]; simpl; [| reflexivity].
    rewrite IH.
    destruct (comprehension f rest) as [a | e]; simpl; [| reflexivity].
    destruct (comprehension f ys); reflexivity.
Qed.






Lemma comprehension_forallb {A B : Type}
    (f : A -> result B) (q : B -> bool) (p : A -> bool) (xs : list A) :
  Forall (fun x => match f x with
                   | Ok y => q y = p x
                   | Raise _ => p x = false
                   end) xs ->
  match comprehension f xs with
  | Ok ys => forallb q ys = forallb p xs
  | Raise _ => forallb p xs = false
  end.
Proof.
  induction 1 as [| x rest Hx _ IH]; simpl.
  - reflexivity.
  - destruct (f x) as [y | e]; simpl.
    + destruct (comprehension f rest) as [ys | e]; simpl.
      * rewrite Hx, IH. reflexivity.
      * rewrite IH. apply andb_false_r.
    + rewrite Hx. reflexivity.
Qed.










(** ** Termination *)




(** ** Worked examples *)

Example negation_of_equals :
  request_of (ConditionNot_init (Some (ConditionComparison EQ sample_parameter (VInt 1))))
  = Ok (VDict [("Type", VStr "Not");
               ("Expression",
                VDict [("Type", VStr "Equals");
                       ("LeftValue", VDict [("Get", VStr "Parameters.MyInt")]);
                       ("RightValue", VInt 1)])]).
Proof. reflexivity. Qed.

Example membership_mixed_candidates :
  request_of (ConditionIn_init (Some sample_parameter)
                               (Some [VInt 1; VStr "a"; sample_property]))
  = Ok (VDict [("Type", VStr "In");
               ("QueryValue", VDict [("Get", VStr "Parameters.MyInt")]);
               ("Values", VList [VInt 1; VStr "a"; VDict [("Get", VStr "Steps.MyStep.Prop")]])]).
Proof. reflexivity. Qed.

Example explicit_none_left_fails_at_render :
  request_of (ConditionEquals_init (Some VNone) (Some (VInt 1))) = Raise AttributeError.
Proof. reflexivity. Qed.

(** * Further properties of rendering *)

(** ** Auxiliary facts *)

Lemma to_request_shape (c : Condition) (d : pyvalue) :
  to_request c = Ok d ->
  exists entries, d = VDict entries /\ map fst entries = request_keys c.
Proof.
  destruct c as [t l r | t v vs | t e | t cs]; simpl; intro H.
  - apply bind_ok in H. destruct H as [x [_ H]].
    apply bind_ok in H. destruct H as [y [_ H]].
    injection H as <-. eexists. split; reflexivity.
  - apply bind_ok in H. destruct H as [x [_ H]].
    apply bind_ok in H. destruct H as [y [_ H]].
    injection H as <-. eexists. split; reflexivity.
  - apply bind_ok in H. destruct H as [x [_ H]].
    injection H as <-. eexists. split; reflexivity.
  - apply bind_ok in H. destruct H as [x [_ H]].
    injection H as <-. eexists. split; reflexivity.
Qed.

Lemma enum_value_inj (a b : ConditionTypeEnum) : enum_value a = enum_value b -> a = b.
Proof.
  destruct a, b; simpl; intro H; try reflexivity; discriminate.
Qed.

Lemma getattr_expr_plain (v : pyvalue) :
  match getattr_expr v with
  | Ok e => is_plain e = expr_plain v
  | Raise _ => expr_plain v = false
  end.
Proof. destruct v; reflexivity. Qed.

Lemma primitive_or_expr_plain (v : pyvalue) :
  exists r, primitive_or_expr v = Ok r /\ is_plain r = resolves_plain v.
Proof. destruct v; eexists; split; reflexivity. Qed.

Lemma resolve_all_plain (vs : list pyvalue) :
  match comprehension primitive_or_expr vs with
  | Ok rs => forallb is_plain rs = forallb resolves_plain vs
  | Raise _ => forallb resolves_plain vs = false
  end.
Proof.
  apply comprehension_forallb.
  apply Forall_forall. intros w _.
  destruct (primitive_or_expr_plain w) as [r [-> Hr]]. exact Hr.
Qed.

Lemma to_request_plain_cases (c : Condition) :
  match to_request c with
  | Ok d => is_plain d = operands_plain c
  | Raise _ => operands_plain c = false
  end.
Proof.
  induction c as [t l r | t v vs | t e IH | t cs IH] using Condition_tree_ind.
  - simpl. pose proof (getattr_expr_plain l) as Hl.
    destruct (getattr_expr l) as [x | ex]; simpl; [| rewrite Hl; reflexivity].
    destruct (primitive_or_expr_plain r) as [y [-> Hy]]. simpl.
    rewrite andb_true_r, Hl, Hy. reflexivity.
  - simpl to_request. simpl operands_plain.
    pose proof (getattr_expr_plain v) as Hv.
    destruct (getattr_expr v) as [x | ex]; simpl bind; [| rewrite Hv; reflexivity].
    pose proof (resolve_all_plain vs) as H.
    destruct (comprehension primitive_or_expr vs) as [ys | ey]; simpl bind.
    + change (is_plain x && (forallb is_plain ys && true)
              = expr_plain v && forallb resolves_plain vs).
      rewrite andb_true_r, Hv, H. reflexivity.
    + rewrite H. apply andb_false_r.
  - simpl. destruct (to_request e) as [d | ex]; simpl.
    + rewrite andb_true_r. exact IH.
    + exact IH.
  - rewrite to_request_or.
    change (operands_plain (ConditionOr t cs)) with (forallb operands_plain cs).
    assert (H := comprehension_forallb to_request is_plain operands_plain cs IH).
    destruct (comprehension to_request cs) as [ys | ey]; simpl bind.
    + change (forallb is_plain ys && true = forallb operands_plain cs).
      rewrite andb_true_r. exact H.
    + exact H.
Qed.

Lemma passthrough_all (vs : list pyvalue) :
  forallb (fun w => negb (isinstance_deferred w)) vs = true ->
  comprehension primitive_or_expr vs = Ok vs.
Proof.
  induction vs as [| w rest IH]; simpl; intro H.
  - reflexivity.
  - apply andb_true_iff in H. destruct H as [Hw Hrest].
    unfold primitive_or_expr at 1.
    apply negb_true_iff in Hw. rewrite Hw. simpl.
    rewrite (IH Hrest). reflexivity.
Qed.

(** ** When rendering succeeds and how it fails *)





(** ** Reading the kind back from a request *)

(** X3: the eight members have pairwise distinct wire strings. *)
Theorem wire_strings_distinct :
  forall a b, enum_value a = enum_value b <-> a = b.
Proof.
  intros a b. split.
  - apply enum_value_inj.
  - intros ->. reflexivity.
Qed.

(** X4: two nodes that render to the same request have the same kind and
    belong to the same class of node, although their operands may differ. *)
Theorem request_determines_kind :
  forall c1 c2 d,
    to_request c1 = Ok d -> to_request c2 = Ok d ->
    condition_type_of c1 = condition_type_of c2 /\ request_keys c1 = request_keys c2.
Proof.
  intros c1 c2 d H1 H2. split.
  - apply enum_value_inj.
    pose proof (to_request_type _ _ H1) as T1.
    pose proof (to_request_type _ _ H2) as T2.
    rewrite T1 in T2. injection T2 as T2. exact T2.
  - destruct (to_request_shape _ _ H1) as [e1 [E1 K1]].
    destruct (to_request_shape _ _ H2) as [e2 [E2 K2]].
    rewrite E1 in E2. injection E2 as <-.
    rewrite <- K1. exact K2.
Qed.

Lemma request_determines_kind_witness :
  condition_type_of (ConditionComparison EQ sample_parameter (VInt 1))
  = condition_type_of
      (ConditionComparison EQ (VOtherExpr "Join" (VDict [("Get", VStr "Parameters.MyInt")]))
                           (VInt 1))
  /\ request_keys (ConditionComparison EQ sample_parameter (VInt 1))
     = request_keys
         (ConditionComparison EQ (VOtherExpr "Join" (VDict [("Get", VStr "Parameters.MyInt")]))
                              (VInt 1)).
Proof.
  apply (request_determines_kind _ _
           (VDict [("Type", VStr "Equals");
                   ("LeftValue", VDict [("Get", VStr "Parameters.MyInt")]);
                   ("RightValue", VInt 1)]));
    reflexivity.
Defined.

(** X5: every request is a dict whose keys are those of the node's class,
    ["Type"] first, with no key written twice. *)
Theorem to_request_keys :
  forall c d,
    to_request c = Ok d ->
    exists entries,
      d = VDict entries
      /\ map fst entries = request_keys c
      /\ NoDup (map fst entries)
      /\ hd_error (map fst entries) = Some "Type".
Proof.
  intros c d H.
  destruct (to_request_shape _ _ H) as [entries [Hd Hk]].
  exists entries. split; [exact Hd |]. split; [exact Hk |].
  rewrite Hk. split.
  - destruct c; simpl;
      repeat (constructor; [simpl; intuition discriminate |]); constructor.
  - destruct c; reflexivity.
Qed.

Lemma to_request_keys_witness :
  exists entries,
    VDict [("Type", VStr "Not");
           ("Expression", VDict [("Type", VStr "Or"); ("Conditions", VList [])])]
    = VDict entries
    /\ map fst entries = request_keys (ConditionNot NOT (ConditionOr OR []))
    /\ NoDup (map fst entries)
    /\ hd_error (map fst entries) = Some "Type".
Proof.
  apply to_request_keys. reflexivity.
Defined.

Lemma wire_strings_distinct_witness : GTE = GTE /\ enum_value GT <> enum_value GTE.
Proof.
  split.
  - apply wire_strings_distinct. reflexivity.
  - intro H. apply wire_strings_distinct in H. discriminate.
Defined.

(** ** Concatenated sequences *)

(** X8: rendering distributes over concatenation of the sequences: the
    ["Conditions"] of a disjunction over [cs1 ++ cs2] are those of the
    disjunction over [cs1] followed by those over [cs2], and likewise the
    ["Values"] of a membership over concatenated candidates. *)
Theorem to_request_concatenation :
  (forall t cs1 cs2 r1 r2,
     to_request (ConditionOr t cs1)
     = Ok (VDict [("Type", VStr (enum_value t)); ("Conditions", VList r1)]) ->
     to_request (ConditionOr t cs2)
     = Ok (VDict [("Type", VStr (enum_value t)); ("Conditions", VList r2)]) ->
     to_request (ConditionOr t (cs1 ++ cs2)%list)
     = Ok (VDict [("Type", VStr (enum_value t)); ("Conditions", VList (r1 ++ r2)%list)]))
  /\ (forall t v vs1 vs2 q r1 r2,
        to_request (ConditionIn t v vs1)
        = Ok (VDict [("Type", VStr (enum_value t)); ("QueryValue", q);
                     ("Values", VList r1)]) ->
        to_request (ConditionIn t v vs2)
        = Ok (VDict [("Type", VStr (enum_value t)); ("QueryValue", q);
                     ("Values", VList r2)]) ->
        to_request (ConditionIn t v (vs1 ++ vs2)%list)
        = Ok (VDict [("Type", VStr (enum_value t)); ("QueryValue", q);
                     ("Values", VList (r1 ++ r2)%list)])).
Proof.
  split.
  - intros t cs1 cs2 r1 r2 H1 H2.
    rewrite to_request_or in H1, H2 |- *.
    apply bind_ok in H1. destruct H1 as [a [Ha H1]]. injection H1 as <-.
    apply bind_ok in H2. destruct H2 as [b [Hb H2]]. injection H2 as <-.
    rewrite comprehension_app, Ha, Hb. reflexivity.
  - intros t v vs1 vs2 q r1 r2 H1 H2.
    simpl in H1, H2 |- *.
    apply bind_ok in H1. destruct H1 as [x [Hx H1]].
    apply bind_ok in H1. destruct H1 as [a [Ha H1]]. injection H1 as <- <-.
    apply bind_ok in H2. destruct H2 as [y [_ H2]].
    apply bind_ok in H2. destruct H2 as [b [Hb H2]]. injection H2 as _ <-.
    rewrite Hx. simpl.
    rewrite comprehension_app, Ha, Hb. reflexivity.
Qed.

Lemma to_request_concatenation_witness :
  to_request (ConditionOr OR ([ConditionOr OR []] ++ [ConditionOr OR []; ConditionOr OR []])%list)
  = Ok (VDict [("Type", VStr (enum_value OR));
               ("Conditions",
                VList ([VDict [("Type", VStr "Or"); ("Conditions", VList [])]]
                       ++ [VDict [("Type", VStr "Or"); ("Conditions", VList [])];
                           VDict [("Type", VStr "Or"); ("Conditions", VList [])]])%list)])
  /\ to_request (ConditionIn IN sample_parameter ([VInt 1] ++ [sample_property])%list)
     = Ok (VDict [("Type", VStr (enum_value IN));
                  ("QueryValue", VDict [("Get", VStr "Parameters.MyInt")]);
                  ("Values",
                   VList ([VInt 1] ++ [VDict [("Get", VStr "Steps.MyStep.Prop")]])%list)]).
Proof.
  destruct to_request_concatenation as [Hor Hin].
  split.
  - apply Hor; reflexivity.
  - apply Hin; reflexivity.
Defined.

(** ** Plain requests *)

(** X9: whenever a request is returned, it is plain data, free of class
    instances, exactly when every [left] and [value] in the tree is an
    object whose [expr] is plain and every right operand and candidate is
    either plain itself or an instance of one of the four deferred classes
    whose [expr] is plain.  A right operand that is not an instance of the
    four classes, and a list of candidates none of which is, appear in the
    request unchanged, whatever they are. *)
Theorem to_request_plain_iff :
  (forall c d,
     to_request c = Ok d ->
     (is_plain d = true <-> operands_plain c = true))
  /\ (forall t l r e,
        getattr_expr l = Ok e ->
        isinstance_deferred r = false ->
        to_request (ConditionComparison t l r)
        = Ok (VDict [("Type", VStr (enum_value t)); ("LeftValue", e); ("RightValue", r)]))
  /\ (forall t v vs q,
        getattr_expr v = Ok q ->
        forallb (fun w => negb (isinstance_deferred w)) vs = true ->
        to_request (ConditionIn t v vs)
        = Ok (VDict [("Type", VStr (enum_value t)); ("QueryValue", q);
                     ("Values", VList vs)])).
Proof.
  split; [| split].
  - intros c d Hd. pose proof (to_request_plain_cases c) as H.
    rewrite Hd in H. rewrite H. reflexivity.
  - intros t l r e Hl Hr. simpl. rewrite Hl. simpl.
    unfold primitive_or_expr. rewrite Hr. reflexivity.
  - intros t v vs q Hv Hvs. simpl. rewrite Hv. simpl.
    rewrite (passthrough_all vs Hvs). reflexivity.
Qed.

Lemma to_request_plain_iff_witness :
  is_plain
    (VDict [("Type", VStr "Or");
            ("Conditions",
             VList [ VDict [("Type", VStr "LessThan");
                            ("LeftValue", VDict [("Get", VStr "Execution.StartDateTime")]);
                            ("RightValue", VDict [("Get", VStr "Steps.MyStep.Prop")])];
                     VDict [("Type", VStr "In");
                            ("QueryValue", VDict [("Get", VStr "Parameters.MyInt")]);
                            ("Values", VList [VInt 1; VNone])] ])]) = true
  /\ to_request (ConditionComparison EQ sample_parameter (VOther "object"))
     = Ok (VDict [("Type", VStr (enum_value EQ));
                  ("LeftValue", VDict [("Get", VStr "Parameters.MyInt")]);
                  ("RightValue", VOther "object")])
  /\ to_request (ConditionIn IN sample_parameter [VOther "object"; VStr "a"])
     = Ok (VDict [("Type", VStr (enum_value IN));
                  ("QueryValue", VDict [("Get", VStr "Parameters.MyInt")]);
                  ("Values", VList [VOther "object"; VStr "a"])]).
Proof.
  destruct to_request_plain_iff as [Hiff [Hright Hcands]].
  split; [| split].
  - apply (Hiff (ConditionOr OR
                   [ ConditionComparison LT sample_execution_variable sample_property;
                     ConditionIn IN sample_parameter [VInt 1; VNone] ])).
    + reflexivity.
    + reflexivity.
  - apply Hright; reflexivity.
  - apply Hcands; reflexivity.
Defined.
